(** * tinky-unordered-list: marker resolution and depth propagation

    A shallow embedding of the two components of the package
    ([UnorderedList], [UnorderedListItem]), of the two React contexts they
    communicate through, and of the part of the host language (JavaScript
    values, array indexing, [Array.prototype.at], the [??] operator) that the
    marker resolution relies on. *)

From stdpp Require Import base option list strings gmap.

Set Warnings "-register-all".
Local Open Scope string_scope.
Local Open Scope Z_scope.

(** ** JavaScript values

    TypeScript types are erased at run time, and the marker is obtained by a
    cast ([resolvedConfig?.marker as string | string[] | undefined]), so the
    value that reaches the resolution code is an arbitrary JavaScript value.
    Numbers are kept to the integers (depths are counters, far below the
    range where doubles stop being exact); arrays are dense
    lists whose slots may well hold [undefined]; an object is the finite map
    from its property names to their values. *)
Module JS.

Inductive value : Type :=
| Undefined
| Null
| Bool (b : bool)
| Number (n : Z)
| Str (s : string)
| Array (elements : list value)
| Object (properties : gmap string value).

(** [typeof v]. *)
Definition typeof (v : value) : string :=
  match v with
  | Undefined => "undefined"
  | Null => "object"
  | Bool _ => "boolean"
  | Number _ => "number"
  | Str _ => "string"
  | Array _ => "object"
  | Object _ => "object"
  end.

(** [Array.isArray(v)]; on success the elements are at hand, the way the
    type checker narrows [v] to an array in the guarded branch. *)
Definition isArray (v : value) : option (list value) :=
  match v with
  | Array elements => Some elements
  | _ => None
  end.

(** [v === undefined || v === null]. *)
Definition nullish (v : value) : bool :=
  match v with
  | Undefined | Null => true
  | _ => false
  end.

(** [a ?? b]. *)
Definition coalesce (a b : value) : value :=
  if nullish a then b else a.

(** [arr[i]] for a number [i]: an index outside [0 .. length-1] names a
    property the array does not have, and reads as [undefined]. *)
Definition index (arr : list value) (i : Z) : value :=
  if decide (0 ≤ i) then default Undefined (arr !! Z.to_nat i) else Undefined.

(** [arr.at(k)]: a negative [k] counts back from the end. *)
Definition at_ (arr : list value) (k : Z) : value :=
  let i := if decide (0 ≤ k) then k else Z.of_nat (length arr) + k in
  if decide (0 ≤ i) then default Undefined (arr !! Z.to_nat i) else Undefined.

(** [v?.key]: [undefined] on a nullish receiver, the property otherwise.
    Only objects carry properties of their own here. *)
Definition optional_member (v : value) (key : string) : value :=
  match v with
  | Object properties => default Undefined (properties !! key)
  | _ => Undefined
  end.

End JS.

Notation "a ?? b" := (JS.coalesce a b) (at level 61, left associativity).

Import JS.

(** ** React contexts

    [createContext(d)] yields a context whose readers get [d] when no
    provider encloses them; [useContext] returns the value of the nearest
    enclosing provider. *)
Record Context (A : Type) : Type := createContext { defaultValue : A }.
Arguments createContext {A} _.
Arguments defaultValue {A} _.

Definition useContext {A : Type} (ctx : Context A) (nearest : option A) : A :=
  default (defaultValue ctx) nearest.

(** [useMemo(f, deps)] within one render pass: the value of [f()].  The
    dependency list only decides when a later pass may reuse it. *)
Definition useMemo {A : Type} (f : unit -> A) : A := f tt.

(** contexts/unordered-list-context: the depth channel. *)
Record UnorderedListContextProps : Type := { depth : Z }.

Definition UnorderedListContext : Context UnorderedListContextProps :=
  createContext {| depth := 0 |}.

(** contexts/unordered-list-item-context: the marker channel.  The field is
    declared a string; what it holds is whatever resolution produced. *)
Record UnorderedListItemContextProps : Type := { marker : value }.

Section Package.

(** [figures.line], from the [figures] package: a string fixed for the
    process, whose actual glyph depends on the terminal. *)
Variable figures_line : string.

(** The theming context of tinky-theme, as seen from a position in the
    tree; the package only ever hands it to [useComponentTheme]. *)
Variable ThemeCtx : Type.

(** themes/unordered-list-theme *)
Definition defaultMarker : string := figures_line.

Definition UnorderedListItemContext : Context UnorderedListItemContextProps :=
  createContext {| marker := Str defaultMarker |}.

(** *** Elements

    What an integrator (or a component) writes: host content ([Text],
    [Box]), the providers of the two exported contexts, a theming scope,
    and the two components of the package. *)
Inductive element : Type :=
| Text (content : value)
| Box (children : list element)
| UnorderedListContext_Provider
    (v : UnorderedListContextProps) (children : list element)
| UnorderedListItemContext_Provider
    (v : UnorderedListItemContextProps) (children : list element)
| ThemeScope (theme : ThemeCtx) (children : list element)
| El_UnorderedList (children : list element)
| El_UnorderedListItem (children : list element).

Record UnorderedListProps : Type := { children : list element }.

(** A component theme's [config] entry: a function of the props, or a
    plain value. *)
Inductive theme_config : Type :=
| ConfigFn (f : UnorderedListProps -> value)
| ConfigVal (v : value).

(** [unorderedListTheme.config]: [() => ({ marker: figures.line })]. *)
Definition unorderedListTheme : theme_config :=
  ConfigFn (fun _ => Object {[ "marker" := Str figures_line ]}).

(** [useComponentTheme(name, theme, props).config], from tinky-theme: the
    configuration in force for the named component at this position.  The
    [styles] it also returns are layout properties spread on the boxes;
    they play no part in what follows and are left out. *)
Variable useComponentTheme :
  ThemeCtx -> string -> theme_config -> UnorderedListProps -> theme_config.

(** *** The body of [UnorderedList] *)

(** The ambient values a component can read where it is rendered. *)
Record Scope : Type := {
  listCtx : option UnorderedListContextProps;
  itemCtx : option UnorderedListItemContextProps;
  themeCtx : ThemeCtx
}.

(** The depth and the marker a component reads in a scope. *)
Definition ambient_depth (sc : Scope) : Z :=
  depth (useContext UnorderedListContext (listCtx sc)).

Definition ambient_marker (sc : Scope) : value :=
  marker (useContext UnorderedListItemContext (itemCtx sc)).

(** [listContext]: components/UnorderedList.tsx, lines 146-151. *)
Definition listContext (depth : Z) : UnorderedListContextProps :=
  useMemo (fun _ => {| depth := depth + 1 |}).

(** [typeof config === "function" ? config(props) : config],
    lines 154-155. *)
Definition resolvedConfig
    (config : theme_config) (props : UnorderedListProps) : value :=
  match config with
  | ConfigFn f => f props
  | ConfigVal v => v
  end.

(** The marker configuration in force: [resolvedConfig?.marker],
    line 156. *)
Definition configuredMarker
    (config : theme_config) (props : UnorderedListProps) : value :=
  optional_member (resolvedConfig config props) "marker".

(** [listItemContext]: lines 153-171.  After [Array.isArray] the marker is
    indexed by the depth, then by [-1], then the default marker is taken,
    each step only if the previous one gave [undefined] or [null]. *)
Definition listItemContext
    (config : theme_config) (props : UnorderedListProps) (depth : Z)
  : UnorderedListItemContextProps :=
  useMemo (fun _ =>
    let resolvedConfig := resolvedConfig config props in
    let marker := optional_member resolvedConfig "marker" in
    if decide (typeof marker = "string") then {| marker := marker |}
    else
      match isArray marker with
      | Some arr =>
          {| marker := index arr depth ?? at_ arr (-1) ?? Str defaultMarker |}
      | None => {| marker := Str defaultMarker |}
      end).

(** The component, lines 137-180: reads the ambient depth and the theme,
    and returns its children wrapped in the two providers. *)
Definition UnorderedList (sc : Scope) (children : list element) : element :=
  let depth := depth (useContext UnorderedListContext (listCtx sc)) in
  let props := {| children := children |} in
  let config :=
    useComponentTheme (themeCtx sc) "UnorderedList" unorderedListTheme props in
  let listContext := listContext depth in
  let listItemContext := listItemContext config props depth in
  UnorderedListContext_Provider listContext
    [UnorderedListItemContext_Provider listItemContext [Box children]].

(** *** The body of [UnorderedListItem]

    Reads the ambient marker and lays it out before the content. *)
Definition UnorderedListItem (sc : Scope) (children : list element) : element :=
  let marker := marker (useContext UnorderedListItemContext (itemCtx sc)) in
  Box [Text marker; Box children].

(** *** Rendering

    The host framework walks the element tree top-down.  A provider
    changes what its subtree reads and leaves no trace of its own; a
    component is replaced by what its body returns, rendered in the scope
    the component itself was met in.  The result keeps, for every
    component instance, what its [useContext] call returned. *)
Inductive instance : Type :=
| HostText (content : value)
| HostBox (output : list instance)
| ListInstance
    (seen : UnorderedListContextProps)
    (broadcast : UnorderedListItemContextProps)
    (output : list instance)
| ItemInstance
    (seen : UnorderedListItemContextProps)
    (output : list instance).

(** The scope below the two providers an [UnorderedList] returns. *)
Definition inside (sc : Scope) (children : list element) : Scope :=
  let depth := depth (useContext UnorderedListContext (listCtx sc)) in
  let props := {| children := children |} in
  let config :=
    useComponentTheme (themeCtx sc) "UnorderedList" unorderedListTheme props in
  {| listCtx := Some (listContext depth);
     itemCtx := Some (listItemContext config props depth);
     themeCtx := themeCtx sc |}.

Fixpoint render (sc : Scope) (e : element) : list instance :=
  match e with
  | Text content => [HostText content]
  | Box children => [HostBox (flat_map (render sc) children)]
  | UnorderedListContext_Provider v children =>
      flat_map
        (render {| listCtx := Some v; itemCtx := itemCtx sc;
                   themeCtx := themeCtx sc |})
        children
  | UnorderedListItemContext_Provider v children =>
      flat_map
        (render {| listCtx := listCtx sc; itemCtx := Some v;
                   themeCtx := themeCtx sc |})
        children
  | ThemeScope theme children =>
      flat_map
        (render {| listCtx := listCtx sc; itemCtx := itemCtx sc;
                   themeCtx := theme |})
        children
  | El_UnorderedList children =>
      let seen := useContext UnorderedListContext (listCtx sc) in
      let sc' := inside sc children in
      [ListInstance seen (useContext UnorderedListItemContext (itemCtx sc'))
         [HostBox (flat_map (render sc') children)]]
  | El_UnorderedListItem children =>
      let seen := useContext UnorderedListItemContext (itemCtx sc) in
      [ItemInstance seen
         [HostBox [HostText (marker seen);
                   HostBox (flat_map (render sc) children)]]]
  end.

(** The scope a tree is rendered in when nothing encloses it. *)
Definition root (theme : ThemeCtx) : Scope :=
  {| listCtx := None; itemCtx := None; themeCtx := theme |}.

(** *** Reading a rendering

    [nesting_exact d0 lvl i]: every list instance of [i] that lies below
    [k] further list instances observed depth [d0 + lvl + k]. *)
Fixpoint nesting_exact (d0 : Z) (lvl : nat) (i : instance) : bool :=
  match i with
  | HostText _ => true
  | HostBox output => forallb (nesting_exact d0 lvl) output
  | ListInstance seen _ output =>
      bool_decide (depth seen = d0 + Z.of_nat lvl)
      && forallb (nesting_exact d0 (S lvl)) output
  | ItemInstance _ output => forallb (nesting_exact d0 lvl) output
  end.

(** The markers observed by the items of [i] that are not inside a list
    instance of [i], in document order. *)
Fixpoint loose_item_markers (i : instance) : list value :=
  match i with
  | HostText _ => []
  | HostBox output => flat_map loose_item_markers output
  | ListInstance _ _ _ => []
  | ItemInstance seen output =>
      marker seen :: flat_map loose_item_markers output
  end.

(** Trees in which the depth channel is fed by list containers only: no
    provider of [UnorderedListContext] is written by hand. *)
Fixpoint depth_by_lists_only (e : element) : bool :=
  match e with
  | Text _ => true
  | UnorderedListContext_Provider _ _ => false
  | Box children
  | UnorderedListItemContext_Provider _ children
  | ThemeScope _ children
  | El_UnorderedList children
  | El_UnorderedListItem children => forallb depth_by_lists_only children
  end.

(** Trees in which no provider of [UnorderedListItemContext] is written
    by hand outside of the list containers of the tree. *)
Fixpoint marker_by_lists_only (e : element) : bool :=
  match e with
  | Text _ => true
  | UnorderedListItemContext_Provider _ _ => false
  | El_UnorderedList _ => true
  | Box children
  | UnorderedListContext_Provider _ children
  | ThemeScope _ children
  | El_UnorderedListItem children => forallb marker_by_lists_only children
  end.

End Package.

Arguments Text {ThemeCtx} content.
Arguments Box {ThemeCtx} children.
Arguments UnorderedListContext_Provider {ThemeCtx} v children.
Arguments UnorderedListItemContext_Provider {ThemeCtx} v children.
Arguments ThemeScope {ThemeCtx} theme children.
Arguments El_UnorderedList {ThemeCtx} children.
Arguments El_UnorderedListItem {ThemeCtx} children.
Arguments children {ThemeCtx} _.
Arguments ConfigFn {ThemeCtx} f.
Arguments ConfigVal {ThemeCtx} v.
Arguments resolvedConfig {ThemeCtx} config props.
Arguments configuredMarker {ThemeCtx} config props.
Arguments listCtx {ThemeCtx} _.
Arguments itemCtx {ThemeCtx} _.
Arguments themeCtx {ThemeCtx} _.
Arguments listItemContext figures_line {ThemeCtx} config props depth.
Arguments UnorderedList figures_line {ThemeCtx} useComponentTheme sc children.
Arguments UnorderedListItem figures_line {ThemeCtx} sc children.
Arguments inside figures_line {ThemeCtx} useComponentTheme sc children.
Arguments render figures_line {ThemeCtx} useComponentTheme sc e.
Arguments root {ThemeCtx} theme.
Arguments ambient_depth {ThemeCtx} sc.
Arguments ambient_marker figures_line {ThemeCtx} sc.
Arguments depth_by_lists_only {ThemeCtx} e.
Arguments marker_by_lists_only {ThemeCtx} e.

(** ** Further readings of trees and renderings *)
Section Readings.

Variable ThemeCtx : Type.

(** The marker observed by every item of a rendering, inside of its list
    instances as well, in document order. *)
Fixpoint item_markers (i : instance) : list value :=
  match i with
  | HostText _ => []
  | HostBox output => flat_map item_markers output
  | ListInstance _ _ output => flat_map item_markers output
  | ItemInstance seen output => marker seen :: flat_map item_markers output
  end.

(** Trees without any list container. *)
Fixpoint no_lists (e : element ThemeCtx) : bool :=
  match e with
  | Text _ => true
  | El_UnorderedList _ => false
  | Box children
  | UnorderedListContext_Provider _ children
  | UnorderedListItemContext_Provider _ children
  | ThemeScope _ children
  | El_UnorderedListItem children => forallb no_lists children
  end.

(** Trees every item of which lies below a list container or a marker
    provider of the tree itself. *)
Fixpoint items_covered (e : element ThemeCtx) : bool :=
  match e with
  | Text _ => true
  | El_UnorderedListItem _ => false
  | El_UnorderedList _ => true
  | UnorderedListItemContext_Provider _ _ => true
  | Box children
  | UnorderedListContext_Provider _ children
  | ThemeScope _ children => forallb items_covered children
  end.

(** Trees without any hand-written provider of [UnorderedListItemContext]. *)
Fixpoint no_marker_provider (e : element ThemeCtx) : bool :=
  match e with
  | Text _ => true
  | UnorderedListItemContext_Provider _ _ => false
  | Box children
  | UnorderedListContext_Provider _ children
  | ThemeScope _ children
  | El_UnorderedList children
  | El_UnorderedListItem children => forallb no_marker_provider children
  end.

(** The depth observed by every list instance of a rendering, in
    document order. *)
Fixpoint list_depths (i : instance) : list Z :=
  match i with
  | HostText _ => []
  | HostBox output => flat_map list_depths output
  | ListInstance seen _ output => depth seen :: flat_map list_depths output
  | ItemInstance _ output => flat_map list_depths output
  end.

(** For every list container of [e], in document order: whether a
    hand-written provider of [UnorderedListContext] lies around it inside
    [e] ([rebased] tells whether one lies around [e] already), and its
    nesting level, the number of list containers around it ([lvl] of them
    around [e] already). *)
Fixpoint list_levels (rebased : bool) (lvl : nat) (e : element ThemeCtx)
  : list (bool * nat) :=
  match e with
  | Text _ => []
  | UnorderedListContext_Provider _ children =>
      flat_map (list_levels true lvl) children
  | El_UnorderedList children =>
      (rebased, lvl) :: flat_map (list_levels rebased (S lvl)) children
  | Box children
  | UnorderedListItemContext_Provider _ children
  | ThemeScope _ children
  | El_UnorderedListItem children =>
      flat_map (list_levels rebased lvl) children
  end.

(** For every item of [e] outside of the list containers of [e], in
    document order: whether a hand-written provider of
    [UnorderedListItemContext] lies around it inside [e] ([under] tells
    whether one lies around [e] already). *)
Fixpoint shadowed (under : bool) (e : element ThemeCtx) : list bool :=
  match e with
  | Text _ => []
  | El_UnorderedList _ => []
  | UnorderedListItemContext_Provider _ children =>
      flat_map (shadowed true) children
  | El_UnorderedListItem children =>
      under :: flat_map (shadowed under) children
  | Box children
  | UnorderedListContext_Provider _ children
  | ThemeScope _ children => flat_map (shadowed under) children
  end.

(** The greatest number of list containers nested in one another in [e]. *)
Fixpoint list_height (e : element ThemeCtx) : nat :=
  match e with
  | Text _ => 0
  | El_UnorderedList children =>
      S (foldr Nat.max 0%nat (map list_height children))
  | Box children
  | UnorderedListContext_Provider _ children
  | UnorderedListItemContext_Provider _ children
  | ThemeScope _ children
  | El_UnorderedListItem children =>
      foldr Nat.max 0%nat (map list_height children)
  end.

End Readings.

Arguments no_lists {ThemeCtx} e.
Arguments items_covered {ThemeCtx} e.
Arguments no_marker_provider {ThemeCtx} e.
Arguments list_levels {ThemeCtx} rebased lvl e.
Arguments shadowed {ThemeCtx} under e.
Arguments list_height {ThemeCtx} e.

(** ** The resolution pattern of the test suites

    [getMarkerForDepth] of tests/unordered-list-context.test.tsx (lines
    114-116), which is also [getMarker] of
    tests/unordered-list-item-context.test.tsx (lines 109-111), over the
    array [markers] it closes over:
    [markers[depth] ?? markers[markers.length - 1]]. *)
Definition getMarkerForDepth (markers : list value) (depth : Z) : value :=
  index markers depth ?? index markers (Z.of_nat (length markers) - 1).

(** ** A sample host

    A stand-in for tinky-theme used to run the model: the theming context
    is the [config] value of an extended theme when there is one, and
    [useComponentTheme] hands back [() => config] for it, or the component's
    own theme otherwise. *)
Module Sample.

Definition line : string := "-".

Definition ThemeCtx : Type := option value.

Definition useComponentTheme
    (theme : ThemeCtx) (name : string)
    (componentTheme : theme_config ThemeCtx)
    (props : UnorderedListProps ThemeCtx) : theme_config ThemeCtx :=
  match theme with
  | Some config => ConfigFn (fun _ => config)
  | None => componentTheme
  end.

(** [{ marker: m }]. *)
Definition config (m : value) : value := Object {[ "marker" := m ]}.

Definition strings (l : list string) : value := Array (Str <$> l).

Definition render : Scope ThemeCtx -> element ThemeCtx -> list instance :=
  render line useComponentTheme.

(** A theme whose [config] is [() => ({ marker: m })]. *)
Definition themed (m : value) : theme_config ThemeCtx :=
  ConfigFn (fun _ => config m).

Definition no_props : UnorderedListProps ThemeCtx := {| children := [] |}.

Definition item (label : string) (more : list (element ThemeCtx))
  : element ThemeCtx :=
  El_UnorderedListItem (Text (Str label) :: more).

(** The contents of a list whose first item holds a list whose first
    item holds a list; each nested list is followed by a further item. *)
Definition contents : list (element ThemeCtx) :=
  [item "a"
     [El_UnorderedList
        [item "b" [El_UnorderedList [item "c" []]];
         item "d" []]];
   item "e" []].

Definition three_levels : element ThemeCtx := El_UnorderedList contents.

(** An item next to a list, with no list around them. *)
Definition stray : element ThemeCtx :=
  Box [item "x" []; three_levels].

(** The markers the items of a rendering display, with the depth their
    list observed, in document order. *)
Fixpoint shown (d : Z) (i : instance) : list (Z * value) :=
  match i with
  | HostText _ => []
  | HostBox output => flat_map (shown d) output
  | ListInstance seen _ output => flat_map (shown (depth seen)) output
  | ItemInstance seen output => (d, marker seen) :: flat_map (shown d) output
  end.

(** tinky-theme with no theme extended: every component gets its own
    theme back. *)
Definition own_theme
    (theme : ThemeCtx) (name : string)
    (componentTheme : theme_config ThemeCtx)
    (props : UnorderedListProps ThemeCtx) : theme_config ThemeCtx :=
  componentTheme.

(** tinky-theme with a theme extended to [{ marker: m }] all over. *)
Definition fixed (m : value)
    (theme : ThemeCtx) (name : string)
    (componentTheme : theme_config ThemeCtx)
    (props : UnorderedListProps ThemeCtx) : theme_config ThemeCtx :=
  themed m.

(** Items and boxes only. *)
Definition flat : element ThemeCtx :=
  Box [item "x" [Box [item "y" []]]; item "z" []].

(** A list whose item holds a list below a hand-written depth provider,
    followed by a list of its own. *)
Definition rebased : element ThemeCtx :=
  El_UnorderedList
    [item "a"
       [UnorderedListContext_Provider {| depth := 5 |}
          [El_UnorderedList [item "b" []]];
        El_UnorderedList [item "c" []]]].

(** The contents of a list: an item holding a list, an item below a
    hand-written marker provider, and a last item. *)
Definition shadowing : list (element ThemeCtx) :=
  [item "a" [El_UnorderedList [item "b" []]];
   UnorderedListItemContext_Provider {| marker := Str "!" |} [item "x" []];
   item "e" []].

End Sample.

(** ** The host language *)

Lemma index_hit (arr : list value) (i : Z) (x : value) :
  0 ≤ i -> arr !! Z.to_nat i = Some x -> index arr i = x.
Proof.
  intros Hi Hx. unfold index.
  destruct (decide (0 ≤ i)) as [_|]; [|lia].
  by rewrite Hx.
Qed.

Lemma index_beyond (arr : list value) (i : Z) :
  Z.of_nat (length arr) ≤ i -> index arr i = Undefined.
Proof.
  intros Hi. unfold index.
  destruct (decide (0 ≤ i)); [|done].
  rewrite lookup_ge_None_2; [done|lia].
Qed.

Lemma index_negative (arr : list value) (i : Z) :
  i < 0 -> index arr i = Undefined.
Proof.
  intros Hi. unfold index. destruct (decide (0 ≤ i)); [lia|done].
Qed.

Lemma index_cases (arr : list value) (i : Z) :
  index arr i = Undefined ∨ index arr i ∈ arr.
Proof.
  unfold index. destruct (decide (0 ≤ i)); [|by left].
  destruct (arr !! Z.to_nat i) as [x|] eqn:Hx; simpl; [|by left].
  right. by eapply list_elem_of_lookup_2.
Qed.

Lemma at_minus_one (arr : list value) :
  at_ arr (-1) = default Undefined (last arr).
Proof.
  unfold at_. destruct (decide (0 ≤ -1)) as [|_]; [lia|].
  rewrite last_lookup.
  destruct arr as [|x arr]; [done|].
  destruct (decide (0 ≤ Z.of_nat (length (x :: arr)) + -1)) as [_|Hn].
  - f_equal. f_equal. simpl. lia.
  - simpl in Hn. lia.
Qed.

Lemma at_minus_one_cases (arr : list value) :
  at_ arr (-1) = Undefined ∨ at_ arr (-1) ∈ arr.
Proof.
  rewrite at_minus_one, last_lookup.
  destruct (arr !! pred (length arr)) as [x|] eqn:Hx; simpl; [|by left].
  right. by eapply list_elem_of_lookup_2.
Qed.

Lemma coalesce_defined (a b : value) : nullish a = false -> a ?? b = a.
Proof. unfold coalesce. by intros ->. Qed.

Lemma coalesce_undefined (b : value) : Undefined ?? b = b.
Proof. done. Qed.

Lemma coalesce_cases (a b : value) :
  (nullish a = true ∧ a ?? b = b) ∨ (nullish a = false ∧ a ?? b = a).
Proof. unfold coalesce. destruct (nullish a); auto. Qed.

(** ** Marker resolution *)
Section Resolution.

Variable figures_line : string.
Variable ThemeCtx : Type.

Implicit Types (config : theme_config ThemeCtx).
Implicit Types (props : UnorderedListProps ThemeCtx).
Implicit Types (d : Z) (arr : list value) (S : list string).

Lemma resolve_string config props d (m : string) :
  configuredMarker config props = Str m ->
  marker (listItemContext figures_line config props d) = Str m.
Proof.
  intros Hm. unfold configuredMarker in *. unfold listItemContext, useMemo. rewrite Hm. done.
Qed.

Lemma resolve_array config props d arr :
  configuredMarker config props = Array arr ->
  marker (listItemContext figures_line config props d)
  = index arr d ?? at_ arr (-1) ?? Str (defaultMarker figures_line).
Proof.
  intros Hm. unfold configuredMarker in *. unfold listItemContext, useMemo. rewrite Hm. done.
Qed.

Lemma resolve_other config props d :
  typeof (configuredMarker config props) ≠ "string" ->
  isArray (configuredMarker config props) = None ->
  marker (listItemContext figures_line config props d)
  = Str (defaultMarker figures_line).
Proof.
  intros Hs Ha. unfold configuredMarker in *. unfold listItemContext, useMemo.
  destruct (decide _) as [|_]; [done|]. by rewrite Ha.
Qed.

Lemma strings_lookup S (n : nat) (m : string) :
  S !! n = Some m -> (Str <$> S) !! n = Some (Str m).
Proof. intros Hm. by rewrite list_lookup_fmap, Hm. Qed.

(** A string at the depth index is the marker. *)
Lemma resolve_array_hit config props d S (m : string) :
  configuredMarker config props = Array (Str <$> S) ->
  0 ≤ d ->
  S !! Z.to_nat d = Some m ->
  marker (listItemContext figures_line config props d) = Str m.
Proof.
  intros Hcfg Hd Hm.
  rewrite (resolve_array _ _ _ _ Hcfg).
  rewrite (index_hit _ _ (Str m)) by auto using strings_lookup.
  done.
Qed.

(** C3.  In-range array resolution: when the configured marker is a
    sequence of strings [S] and the depth [d] is one of its indices,
    resolution yields the element of [S] at index [d], whatever the
    default marker is. *)
Theorem in_range_array_resolution config props d S :
  configuredMarker config props = Array (Str <$> S) ->
  S ≠ [] ->
  0 ≤ d < Z.of_nat (length S) ->
  ∃ m, S !! Z.to_nat d = Some m
       ∧ marker (listItemContext figures_line config props d) = Str m.
Proof.
  intros Hcfg _ [Hlo Hhi].
  destruct (lookup_lt_is_Some_2 S (Z.to_nat d)) as [m Hm]; [lia|].
  exists m. split; [done|].
  by apply resolve_array_hit with (S := S).
Qed.

(** C4.  Saturation: when the configured marker is a non-empty sequence
    of strings [S] and the depth is at or beyond its length, resolution
    yields the last element of [S], the one at index [len(S) - 1]. *)
Theorem saturation config props d S :
  configuredMarker config props = Array (Str <$> S) ->
  S ≠ [] ->
  Z.of_nat (length S) ≤ d ->
  ∃ m, S !! (length S - 1)%nat = Some m
       ∧ marker (listItemContext figures_line config props d) = Str m.
Proof.
  intros Hcfg Hne Hd.
  destruct (lookup_lt_is_Some_2 S (length S - 1)) as [m Hm].
  { destruct S; [done|simpl; lia]. }
  exists m. split; [done|].
  rewrite (resolve_array _ _ _ _ Hcfg).
  rewrite index_beyond by (rewrite length_fmap; lia).
  rewrite coalesce_undefined, at_minus_one, last_lookup, length_fmap.
  replace (pred (length S)) with (length S - 1)%nat by lia.
  by rewrite (strings_lookup _ _ _ Hm).
Qed.

(** C5.  Single-string configuration: when the configured marker is a
    string [m], resolution yields [m] at every depth. *)
Theorem single_string_resolution config props d (m : string) :
  configuredMarker config props = Str m ->
  marker (listItemContext figures_line config props d) = Str m.
Proof.
  intros Hcfg. unfold configuredMarker in Hcfg.
  unfold listItemContext, useMemo. rewrite Hcfg.
  destruct (decide (typeof (Str m) = "string")) as [_|Hno]; [reflexivity|].
  by destruct Hno.
Qed.

(** C10.  Empty-string elements are usable markers: when the element of
    the configured sequence at the depth index is the empty string,
    resolution yields the empty string, not the last element and not the
    default marker. *)
Theorem empty_string_is_a_marker config props d S :
  configuredMarker config props = Array (Str <$> S) ->
  0 ≤ d ->
  S !! Z.to_nat d = Some "" ->
  marker (listItemContext figures_line config props d) = Str "".
Proof.
  intros Hcfg Hd Hm.
  rewrite (resolve_array _ _ _ _ Hcfg).
  assert (Hslot : (Str <$> S) !! Z.to_nat d = Some (Str ""))
    by auto using strings_lookup.
  rewrite (index_hit _ _ _ Hd Hslot).
  reflexivity.
Qed.

(** Where a resolved marker comes from: the configured string, the
    default marker, or an element of the configured array. *)
Lemma resolution_provenance config props d :
  (∃ m : string, marker (listItemContext figures_line config props d) = Str m)
  ∨ ∃ arr, configuredMarker config props = Array arr
           ∧ marker (listItemContext figures_line config props d) ∈ arr.
Proof.
  destruct (configuredMarker config props) as [| |b|n|m|arr|o] eqn:Hcfg;
    try (left; eexists; apply resolve_other; by rewrite Hcfg).
  - left. eexists. by apply resolve_string.
  - rewrite (resolve_array _ _ _ _ Hcfg).
    destruct (coalesce_cases (index arr d) (at_ arr (-1))) as [[Hx ->]|[Hx ->]].
    + destruct (coalesce_cases (at_ arr (-1)) (Str (defaultMarker figures_line)))
        as [[Hy ->]|[Hy ->]]; [by eauto|].
      right. exists arr. split; [done|].
      destruct (at_minus_one_cases arr) as [Hu|Hin]; [|done].
      by rewrite Hu in Hy.
    + rewrite coalesce_defined by done.
      right. exists arr. split; [done|].
      destruct (index_cases arr d) as [Hu|Hin]; [|done].
      by rewrite Hu in Hx.
Qed.

Lemma resolution_defined config props d :
  nullish (marker (listItemContext figures_line config props d)) = false.
Proof.
  destruct (configuredMarker config props) as [| |b|n|m|arr|o] eqn:Hcfg;
    try (rewrite resolve_other by (by rewrite Hcfg); done).
  - by rewrite (resolve_string _ _ _ _ Hcfg).
  - rewrite (resolve_array _ _ _ _ Hcfg).
    destruct (coalesce_cases (index arr d ?? at_ arr (-1))
                (Str (defaultMarker figures_line))) as [[_ ->]|[Hx ->]]; done.
Qed.

(** C6, as the code has it.  Fallback: when the configured marker is an
    empty array, or there is no configuration or no marker in it, or the
    marker is neither a string nor an array, resolution yields the default
    marker at every depth. *)
Theorem fallback_to_default_marker config props d :
  configuredMarker config props = Array []
  ∨ nullish (resolvedConfig config props) = true
  ∨ nullish (configuredMarker config props) = true
  ∨ (typeof (configuredMarker config props) ≠ "string"
     ∧ isArray (configuredMarker config props) = None) ->
  marker (listItemContext figures_line config props d)
  = Str (defaultMarker figures_line).
Proof.
  intros [Hempty|[Hnone|[Hmissing|[Hs Ha]]]].
  - rewrite (resolve_array _ _ _ _ Hempty).
    unfold index, at_. by destruct (decide (0 ≤ d)).
  - apply resolve_other; unfold configuredMarker;
      by destruct (resolvedConfig config props).
  - apply resolve_other; by destruct (configuredMarker config props).
  - by apply resolve_other.
Qed.

(** C8, as the code has it.  Resolution is a total function of the depth
    and of the configuration, and its result is never [undefined] or
    [null]; the result is a string, unless the configured marker is an
    array and the result is one of its elements that is not a string. *)
Theorem resolution_is_total_and_defined config props d :
  ∃ r, marker (listItemContext figures_line config props d) = r
       ∧ nullish r = false
       ∧ (typeof r = "string"
          ∨ ∃ arr, configuredMarker config props = Array arr
                   ∧ r ∈ arr ∧ typeof r ≠ "string").
Proof.
  eexists. split; [reflexivity|].
  split; [apply resolution_defined|].
  destruct (decide (typeof (marker (listItemContext figures_line config props d))
                    = "string")) as [|Hns]; [by left|right].
  destruct (resolution_provenance config props d)
    as [[m Heq]|(arr & Hcfg & Hin)]; [|by eauto].
  by rewrite Heq in Hns.
Qed.

End Resolution.

(** ** Rendering *)

(** Induction on elements, with the property at hand for every child. *)
Section ElementInduction.

Variable ThemeCtx : Type.
Variable P : element ThemeCtx -> Prop.

Hypothesis text : ∀ content, P (Text content).
Hypothesis box : ∀ cs, Forall P cs -> P (Box cs).
Hypothesis depth_provider :
  ∀ v cs, Forall P cs -> P (UnorderedListContext_Provider v cs).
Hypothesis marker_provider :
  ∀ v cs, Forall P cs -> P (UnorderedListItemContext_Provider v cs).
Hypothesis theme_scope : ∀ theme cs, Forall P cs -> P (ThemeScope theme cs).
Hypothesis list_ : ∀ cs, Forall P cs -> P (El_UnorderedList cs).
Hypothesis item_ : ∀ cs, Forall P cs -> P (El_UnorderedListItem cs).

Lemma element_children_ind (e : element ThemeCtx) : P e.
Proof.
  revert e. fix IH 1.
  intros [content|cs|v cs|v cs|theme cs|cs|cs];
    [ apply text | apply box | apply depth_provider | apply marker_provider
    | apply theme_scope | apply list_ | apply item_ ];
    (revert cs; fix IHcs 1; intros [|c cs];
     constructor; [apply IH | apply IHcs]).
Qed.

End ElementInduction.

Lemma forallb_flat_map_intro {A B : Type}
    (f : B -> bool) (g : A -> list B) (p : A -> bool) (l : list A) :
  Forall (λ x, p x = true -> forallb f (g x) = true) l ->
  forallb p l = true ->
  forallb f (flat_map g l) = true.
Proof.
  induction 1 as [|x l Hx _ IH]; simpl; [done|].
  intros [Hp Hl]%andb_true_iff.
  rewrite forallb_app. apply andb_true_iff. auto.
Qed.

Lemma Forall_flat_map_intro {A B : Type}
    (Q : B -> Prop) (g : A -> list B) (p : A -> bool) (l : list A) :
  Forall (λ x, p x = true -> Forall Q (g x)) l ->
  forallb p l = true ->
  Forall Q (flat_map g l).
Proof.
  induction 1 as [|x l Hx _ IH]; simpl; [constructor|].
  intros [Hp Hl]%andb_true_iff.
  apply Forall_app. auto.
Qed.

Lemma loose_in_item_output (m : value) (output : list instance) :
  flat_map loose_item_markers [HostBox [HostText m; HostBox output]]
  = flat_map loose_item_markers output.
Proof. simpl. by rewrite !app_nil_r. Qed.

Lemma loose_in_box (output : list instance) :
  flat_map loose_item_markers [HostBox output]
  = flat_map loose_item_markers output.
Proof. simpl. by rewrite app_nil_r. Qed.

Lemma loose_in_item
    (seen : UnorderedListItemContextProps) (output : list instance) :
  flat_map loose_item_markers [ItemInstance seen output]
  = marker seen :: flat_map loose_item_markers output.
Proof. simpl. by rewrite app_nil_r. Qed.

Lemma flat_map_flat_map {A B C : Type}
    (f : A -> list B) (g : B -> list C) (l : list A) :
  flat_map g (flat_map f l) = flat_map (λ x, flat_map g (f x)) l.
Proof.
  induction l as [|x l IH]; simpl; [done|].
  by rewrite flat_map_app, IH.
Qed.

Lemma Forall2_flat_map {A B C : Type}
    (R : B -> C -> Prop) (f : A -> list B) (g : A -> list C) (l : list A) :
  Forall (λ x, Forall2 R (f x) (g x)) l ->
  Forall2 R (flat_map f l) (flat_map g l).
Proof.
  induction 1 as [|x l Hx _ IH]; simpl; [constructor|].
  by apply Forall2_app.
Qed.

Lemma depths_in_box (output : list instance) :
  flat_map list_depths [HostBox output] = flat_map list_depths output.
Proof. simpl. by rewrite app_nil_r. Qed.

Lemma depths_in_list
    (seen : UnorderedListContextProps)
    (broadcast : UnorderedListItemContextProps) (output : list instance) :
  flat_map list_depths [ListInstance seen broadcast output]
  = depth seen :: flat_map list_depths output.
Proof. simpl. by rewrite app_nil_r. Qed.

Lemma depths_in_item
    (seen : UnorderedListItemContextProps) (output : list instance) :
  flat_map list_depths [ItemInstance seen output]
  = flat_map list_depths output.
Proof. simpl. by rewrite app_nil_r. Qed.

Lemma depths_in_item_output (m : value) (output : list instance) :
  flat_map list_depths [HostBox [HostText m; HostBox output]]
  = flat_map list_depths output.
Proof. simpl. by rewrite !app_nil_r. Qed.

Section Rendering.

Variable figures_line : string.
Variable ThemeCtx : Type.
Variable useComponentTheme :
  ThemeCtx -> string -> theme_config ThemeCtx ->
  UnorderedListProps ThemeCtx -> theme_config ThemeCtx.

Implicit Types (sc : Scope ThemeCtx) (t e : element ThemeCtx).
Implicit Types (cs : list (element ThemeCtx)).

(** A component instance is its body, rendered where the component is. *)
Lemma render_UnorderedList sc cs :
  render figures_line useComponentTheme sc (El_UnorderedList cs)
  = [ListInstance
       (useContext UnorderedListContext (listCtx sc))
       (listItemContext figures_line
          (useComponentTheme (themeCtx sc) "UnorderedList"
             (unorderedListTheme figures_line ThemeCtx) {| children := cs |})
          {| children := cs |} (ambient_depth sc))
       (render figures_line useComponentTheme sc
          (UnorderedList figures_line useComponentTheme sc cs))].
Proof. reflexivity. Qed.

Lemma render_UnorderedListItem sc cs :
  render figures_line useComponentTheme sc (El_UnorderedListItem cs)
  = [ItemInstance
       (useContext (UnorderedListItemContext figures_line) (itemCtx sc))
       (render figures_line useComponentTheme sc
          (UnorderedListItem figures_line sc cs))].
Proof. done. Qed.

(** What the two components leave in a rendering. *)
Lemma render_list_output sc cs :
  render figures_line useComponentTheme sc (El_UnorderedList cs)
  = [ListInstance
       (useContext UnorderedListContext (listCtx sc))
       (useContext (UnorderedListItemContext figures_line)
          (itemCtx (inside figures_line useComponentTheme sc cs)))
       [HostBox
          (flat_map
             (render figures_line useComponentTheme
                (inside figures_line useComponentTheme sc cs))
             cs)]].
Proof. reflexivity. Qed.

Lemma render_item_output sc cs :
  render figures_line useComponentTheme sc (El_UnorderedListItem cs)
  = [ItemInstance
       (useContext (UnorderedListItemContext figures_line) (itemCtx sc))
       [HostBox
          [HostText (ambient_marker figures_line sc);
           HostBox (flat_map (render figures_line useComponentTheme sc) cs)]]].
Proof. reflexivity. Qed.

Lemma inside_depth sc cs :
  ambient_depth (inside figures_line useComponentTheme sc cs)
  = ambient_depth sc + 1.
Proof. done. Qed.

(** Depth: below [lvl] lists, a tree rendered at depth [d0 + lvl] has
    every list at its level. *)
Lemma render_nesting_exact (d0 : Z) t :
  ∀ sc (lvl : nat),
    depth_by_lists_only t = true ->
    ambient_depth sc = d0 + Z.of_nat lvl ->
    forallb (nesting_exact d0 lvl)
      (render figures_line useComponentTheme sc t) = true.
Proof.
  induction t as [content|cs IH|v cs IH|v cs IH|theme cs IH|cs IH|cs IH]
    using element_children_ind; intros sc lvl Hok Hd; simpl in Hok |- *;
    try done.
  - rewrite andb_true_r.
    apply forallb_flat_map_intro with (p := depth_by_lists_only); [|done].
    eapply Forall_impl; [exact IH|]. intros c Hc ?. by apply Hc.
  - apply forallb_flat_map_intro with (p := depth_by_lists_only); [|done].
    eapply Forall_impl; [exact IH|]. intros c Hc ?. by apply Hc.
  - apply forallb_flat_map_intro with (p := depth_by_lists_only); [|done].
    eapply Forall_impl; [exact IH|]. intros c Hc ?. by apply Hc.
  - rewrite !andb_true_r. apply andb_true_iff. split.
    + apply bool_decide_eq_true. exact Hd.
    + apply forallb_flat_map_intro with (p := depth_by_lists_only); [|done].
      eapply Forall_impl; [exact IH|]. intros c Hc ?. apply Hc; [done|].
      rewrite inside_depth. lia.
  - rewrite !andb_true_r.
    apply forallb_flat_map_intro with (p := depth_by_lists_only); [|done].
    eapply Forall_impl; [exact IH|]. intros c Hc ?. by apply Hc.
Qed.

(** Marker: the items of a tree that are outside of its lists read the
    marker of the scope the tree is rendered in. *)
Lemma render_loose_items t :
  ∀ sc,
    marker_by_lists_only t = true ->
    Forall (λ i, Forall (eq (ambient_marker figures_line sc))
                   (loose_item_markers i))
      (render figures_line useComponentTheme sc t).
Proof.
  induction t as [content|cs IH|v cs IH|v cs IH|theme cs IH|cs IH|cs IH]
    using element_children_ind; intros sc Hok; simpl in Hok |- *;
    try done.
  - repeat constructor.
  - repeat constructor. apply Forall_flat_map.
    apply Forall_flat_map_intro with (p := marker_by_lists_only); [|done].
    eapply Forall_impl; [exact IH|]. intros c Hc ?. by apply Hc.
  - apply Forall_flat_map_intro with (p := marker_by_lists_only); [|done].
    eapply Forall_impl; [exact IH|]. intros c Hc Hokc.
    exact (Hc {| listCtx := Some v; itemCtx := itemCtx sc;
                 themeCtx := themeCtx sc |} Hokc).
  - apply Forall_flat_map_intro with (p := marker_by_lists_only); [|done].
    eapply Forall_impl; [exact IH|]. intros c Hc Hokc.
    exact (Hc {| listCtx := listCtx sc; itemCtx := itemCtx sc;
                 themeCtx := theme |} Hokc).
  - repeat constructor.
  - constructor; [|constructor].
    cbn [loose_item_markers]. constructor; [done|].
    rewrite loose_in_item_output. apply Forall_flat_map.
    apply Forall_flat_map_intro with (p := marker_by_lists_only); [|done].
    eapply Forall_impl; [exact IH|]. intros c Hc ?. by apply Hc.
Qed.

(** What the items of an item observe does not depend on a list nested
    among them. *)
Lemma loose_past_nested_list sc (pre nested post : list (element ThemeCtx)) :
  flat_map loose_item_markers
    (render figures_line useComponentTheme sc
       (El_UnorderedListItem (pre ++ El_UnorderedList nested :: post)))
  = flat_map loose_item_markers
      (render figures_line useComponentTheme sc
         (El_UnorderedListItem (pre ++ post))).
Proof.
  rewrite !render_item_output, !loose_in_item, !loose_in_item_output.
  f_equal. by rewrite !flat_map_app.
Qed.

(** Depth, list by list: a list with no hand-written depth provider around
    it inside the tree observes the depth the tree is rendered at plus its
    nesting level. *)
Lemma render_list_levels (d0 : Z) t :
  ∀ sc (rebased : bool) (lvl : nat),
    rebased = true ∨ ambient_depth sc = d0 + Z.of_nat lvl ->
    Forall2 (λ (lv : bool * nat) (d : Z), lv.1 = true ∨ d = d0 + Z.of_nat lv.2)
      (list_levels rebased lvl t)
      (flat_map list_depths (render figures_line useComponentTheme sc t)).
Proof.
  induction t as [content|cs IH|v cs IH|v cs IH|theme cs IH|cs IH|cs IH]
    using element_children_ind; intros sc rebased lvl Hd;
    cbn [list_levels].
  - constructor.
  - cbn [render]. rewrite depths_in_box, flat_map_flat_map.
    apply Forall2_flat_map.
    eapply Forall_impl; [exact IH|]. intros c Hc. by apply Hc.
  - cbn [render]. rewrite flat_map_flat_map.
    apply Forall2_flat_map.
    eapply Forall_impl; [exact IH|]. intros c Hc. apply Hc. by left.
  - cbn [render]. rewrite flat_map_flat_map.
    apply Forall2_flat_map.
    eapply Forall_impl; [exact IH|]. intros c Hc.
    exact (Hc {| listCtx := listCtx sc; itemCtx := Some v;
                 themeCtx := themeCtx sc |} rebased lvl Hd).
  - cbn [render]. rewrite flat_map_flat_map.
    apply Forall2_flat_map.
    eapply Forall_impl; [exact IH|]. intros c Hc.
    exact (Hc {| listCtx := listCtx sc; itemCtx := itemCtx sc;
                 themeCtx := theme |} rebased lvl Hd).
  - rewrite render_list_output, depths_in_list, depths_in_box.
    rewrite flat_map_flat_map. constructor.
    + exact Hd.
    + apply Forall2_flat_map.
      eapply Forall_impl; [exact IH|]. intros c Hc. apply Hc.
      destruct Hd as [Hr|Hd]; [by left|right].
      rewrite inside_depth, Hd. lia.
  - rewrite render_item_output, depths_in_item, depths_in_item_output.
    rewrite flat_map_flat_map. apply Forall2_flat_map.
    eapply Forall_impl; [exact IH|]. intros c Hc. by apply Hc.
Qed.

(** C1, as the code has it.  Depth propagation: a list rendered at ambient
    depth [d] renders what it contains at ambient depth [d + 1]; in every
    tree, every list with no hand-written provider of the depth context
    around it inside the tree observes the depth the tree is rendered at
    plus its nesting level, the number of lists around it; and in a tree
    rendered with nothing around it such a list observes its nesting
    level exactly. *)
Theorem depth_equals_nesting_level t :
  (∀ sc cs,
      ambient_depth (inside figures_line useComponentTheme sc cs)
      = ambient_depth sc + 1)
  ∧ (∀ sc,
      Forall2
        (λ (lv : bool * nat) (d : Z),
           lv.1 = true ∨ d = ambient_depth sc + Z.of_nat lv.2)
        (list_levels false 0 t)
        (flat_map list_depths (render figures_line useComponentTheme sc t)))
  ∧ (∀ theme,
      Forall2
        (λ (lv : bool * nat) (d : Z), lv.1 = true ∨ d = Z.of_nat lv.2)
        (list_levels false 0 t)
        (flat_map list_depths
           (render figures_line useComponentTheme (root theme) t))).
Proof.
  split; [|split].
  - intros sc cs. apply inside_depth.
  - intros sc. apply render_list_levels. right. simpl. lia.
  - intros theme.
    apply (render_list_levels 0 t (root theme) false 0%nat). by right.
Qed.

(** C2.  Pre-increment resolution: a list container that reads ambient
    depth [d] resolves its marker at [d]; that marker is what the scope
    of its children carries and what an item placed there displays, while
    the depth of that scope is [d + 1].  With a sequence of strings
    configured, the items get its element at index [d]. *)
Theorem pre_increment_resolution sc cs :
  let d := ambient_depth sc in
  let props := {| children := cs |} in
  let config :=
    useComponentTheme (themeCtx sc) "UnorderedList"
      (unorderedListTheme figures_line ThemeCtx) props in
  let resolved := listItemContext figures_line config props d in
  let below := inside figures_line useComponentTheme sc cs in
  render figures_line useComponentTheme sc (El_UnorderedList cs)
  = [ListInstance (useContext UnorderedListContext (listCtx sc)) resolved
       [HostBox (flat_map (render figures_line useComponentTheme below) cs)]]
  ∧ useContext (UnorderedListItemContext figures_line) (itemCtx below)
    = resolved
  ∧ ambient_depth below = d + 1
  ∧ (∀ content,
      render figures_line useComponentTheme below
        (El_UnorderedListItem content)
      = [ItemInstance resolved
           [HostBox
              [HostText (marker resolved);
               HostBox
                 (flat_map (render figures_line useComponentTheme below)
                    content)]]])
  ∧ (∀ (S : list string) (m : string),
      configuredMarker config props = Array (Str <$> S) ->
      0 ≤ d ->
      S !! Z.to_nat d = Some m ->
      ambient_marker figures_line below = Str m).
Proof.
  intros d props config resolved below.
  split; [apply render_list_output|].
  split; [reflexivity|].
  split; [apply inside_depth|].
  split; [intros content; apply render_item_output|].
  intros S m Hcfg Hd Hm.
  change (ambient_marker figures_line below) with (marker resolved).
  exact (resolve_array_hit figures_line ThemeCtx config props d S m Hcfg Hd Hm).
Qed.

(** Marker, item by item: an item outside of the lists of the tree with no
    hand-written marker provider around it inside the tree observes the
    marker the tree is rendered with. *)
Lemma render_shadowed (m : value) t :
  ∀ sc (under : bool),
    under = true ∨ ambient_marker figures_line sc = m ->
    Forall2 (λ (hidden : bool) (x : value), hidden = true ∨ x = m)
      (shadowed under t)
      (flat_map loose_item_markers
         (render figures_line useComponentTheme sc t)).
Proof.
  induction t as [content|cs IH|v cs IH|v cs IH|theme cs IH|cs IH|cs IH]
    using element_children_ind; intros sc under Hm; cbn [shadowed].
  - constructor.
  - cbn [render]. rewrite loose_in_box, flat_map_flat_map.
    apply Forall2_flat_map.
    eapply Forall_impl; [exact IH|]. intros c Hc. by apply Hc.
  - cbn [render]. rewrite flat_map_flat_map.
    apply Forall2_flat_map.
    eapply Forall_impl; [exact IH|]. intros c Hc.
    exact (Hc {| listCtx := Some v; itemCtx := itemCtx sc;
                 themeCtx := themeCtx sc |} under Hm).
  - cbn [render]. rewrite flat_map_flat_map.
    apply Forall2_flat_map.
    eapply Forall_impl; [exact IH|]. intros c Hc. apply Hc. by left.
  - cbn [render]. rewrite flat_map_flat_map.
    apply Forall2_flat_map.
    eapply Forall_impl; [exact IH|]. intros c Hc.
    exact (Hc {| listCtx := listCtx sc; itemCtx := itemCtx sc;
                 themeCtx := theme |} under Hm).
  - rewrite render_list_output. constructor.
  - rewrite render_item_output, loose_in_item, loose_in_item_output.
    rewrite flat_map_flat_map. constructor.
    + exact Hm.
    + apply Forall2_flat_map.
      eapply Forall_impl; [exact IH|]. intros c Hc. by apply Hc.
Qed.


(** C9.  Standalone item default: the marker context defaults to the
    default marker, so an item rendered where no marker has been
    provided displays the default marker, and so does every item of a
    tree rendered with nothing around it that is outside of the lists of
    the tree. *)
Theorem standalone_item_default t :
  marker_by_lists_only t = true ->
  defaultValue (UnorderedListItemContext figures_line)
  = {| marker := Str (defaultMarker figures_line) |}
  ∧ (∀ lc theme content,
       let sc := {| listCtx := lc; itemCtx := None; themeCtx := theme |} in
       render figures_line useComponentTheme sc
         (El_UnorderedListItem content)
       = [ItemInstance {| marker := Str (defaultMarker figures_line) |}
            [HostBox
               [HostText (Str (defaultMarker figures_line));
                HostBox
                  (flat_map (render figures_line useComponentTheme sc)
                     content)]]])
  ∧ (∀ theme,
       Forall (eq (Str (defaultMarker figures_line)))
         (flat_map loose_item_markers
            (render figures_line useComponentTheme (root theme) t))).
Proof.
  intros Hok. repeat split.
  intros theme. apply Forall_flat_map.
  exact (render_loose_items t (root theme) Hok).
Qed.

End Rendering.

(** ** The model at work *)

(** The default component theme configures the default marker. *)
Example default_theme_marker :
  marker (listItemContext Sample.line
            (unorderedListTheme Sample.line Sample.ThemeCtx) Sample.no_props 5)
  = Str (defaultMarker Sample.line).
Proof. reflexivity. Qed.

(** One marker for every level. *)
Example scenario_single_marker :
  flat_map (Sample.shown 0)
    (Sample.render (root (Some (Sample.config (Str "*")))) Sample.three_levels)
  = [(0, Str "*"); (1, Str "*"); (2, Str "*"); (1, Str "*"); (0, Str "*")].
Proof. vm_compute. reflexivity. Qed.

(** A marker per level, reused from the last configured level on. *)
Example scenario_markers_saturate :
  flat_map (Sample.shown 0)
    (Sample.render
       (root (Some (Sample.config (Sample.strings ["*"; "+"]))))
       Sample.three_levels)
  = [(0, Str "*"); (1, Str "+"); (2, Str "+"); (1, Str "+"); (0, Str "*")].
Proof. vm_compute. reflexivity. Qed.

(** No configuration, and an empty sequence: the default marker. *)
Example scenario_no_configuration :
  flat_map (Sample.shown 0) (Sample.render (root None) Sample.three_levels)
  = [(0, Str "-"); (1, Str "-"); (2, Str "-"); (1, Str "-"); (0, Str "-")].
Proof. vm_compute. reflexivity. Qed.

Example scenario_empty_sequence :
  flat_map (Sample.shown 0)
    (Sample.render (root (Some (Sample.config (Array [])))) Sample.three_levels)
  = [(0, Str "-"); (1, Str "-"); (2, Str "-"); (1, Str "-"); (0, Str "-")].
Proof. vm_compute. reflexivity. Qed.

(** A slot holding [undefined] is passed over for the last element. *)
Example undefined_slot_takes_last :
  marker (listItemContext Sample.line
            (Sample.themed (Array [Undefined; Str "x"])) Sample.no_props 0)
  = Str "x".
Proof. vm_compute. reflexivity. Qed.

(** A provider written by hand overrides the depth a list observes. *)
Example hand_written_depth_provider :
  Sample.render (root None)
    (UnorderedListContext_Provider {| depth := 5 |} [El_UnorderedList []])
  = [ListInstance {| depth := 5 |} {| marker := Str "-" |} [HostBox []]].
Proof. vm_compute. reflexivity. Qed.

Lemma depth_equals_nesting_level_witness :
  list_levels false 0 Sample.rebased = [(false, 0); (true, 1); (false, 1)]%nat
  ∧ flat_map list_depths (Sample.render (root None) Sample.rebased)
    = [0; 5; 1]
  ∧ Forall2
      (λ (lv : bool * nat) (d : Z), lv.1 = true ∨ d = Z.of_nat lv.2)
      (list_levels false 0 Sample.rebased)
      (flat_map list_depths (Sample.render (root None) Sample.rebased)).
Proof.
  split; [reflexivity|]. split; [vm_compute; reflexivity|].
  exact (proj2 (proj2 (depth_equals_nesting_level Sample.line Sample.ThemeCtx
                          Sample.useComponentTheme Sample.rebased)) None).
Defined.

(** C1 as stated fails: a list nested in the root list, below no other
    list but below a hand-written depth provider, observes the provided
    depth and not its nesting level. *)
Lemma provided_depth_is_not_nesting_level :
  let observed :=
    flat_map list_depths (Sample.render (root None) Sample.rebased) in
  let levels := (list_levels false 0 Sample.rebased).*2 in
  observed = [0; 5; 1]
  ∧ levels = [0; 1; 1]%nat
  ∧ observed ≠ Z.of_nat <$> levels.
Proof.
  split; [vm_compute; reflexivity|]. split; [reflexivity|].
  vm_compute. discriminate.
Qed.

Lemma pre_increment_resolution_witness :
  ambient_marker Sample.line
    (inside Sample.line Sample.useComponentTheme
       (root (Some (Sample.config (Sample.strings ["*"; "+"]))))
       Sample.contents)
  = Str "*".
Proof.
  apply (pre_increment_resolution Sample.line Sample.ThemeCtx
           Sample.useComponentTheme
           (root (Some (Sample.config (Sample.strings ["*"; "+"]))))
           Sample.contents)
    with (S := ["*"; "+"]).
  - vm_compute. reflexivity.
  - vm_compute. discriminate.
  - reflexivity.
Defined.

Lemma in_range_array_resolution_witness :
  ∃ m, ["*"; "+"; "o"] !! Z.to_nat 1 = Some m
       ∧ marker (listItemContext Sample.line
                   (Sample.themed (Sample.strings ["*"; "+"; "o"]))
                   Sample.no_props 1)
         = Str m.
Proof.
  apply (in_range_array_resolution Sample.line Sample.ThemeCtx
           (Sample.themed (Sample.strings ["*"; "+"; "o"]))
           Sample.no_props 1 ["*"; "+"; "o"]).
  - vm_compute. reflexivity.
  - discriminate.
  - simpl. lia.
Defined.

Lemma saturation_witness :
  ∃ m, ["*"; "+"] !! (length ["*"; "+"] - 1)%nat = Some m
       ∧ marker (listItemContext Sample.line
                   (Sample.themed (Sample.strings ["*"; "+"]))
                   Sample.no_props 4)
         = Str m.
Proof.
  apply (saturation Sample.line Sample.ThemeCtx
           (Sample.themed (Sample.strings ["*"; "+"]))
           Sample.no_props 4 ["*"; "+"]).
  - vm_compute. reflexivity.
  - discriminate.
  - simpl. lia.
Defined.

Lemma single_string_resolution_witness :
  marker (listItemContext Sample.line (Sample.themed (Str "*"))
            Sample.no_props 7)
  = Str "*".
Proof.
  apply (single_string_resolution Sample.line Sample.ThemeCtx
           (Sample.themed (Str "*")) Sample.no_props 7 "*").
  vm_compute. reflexivity.
Defined.

Lemma empty_string_is_a_marker_witness :
  marker (listItemContext Sample.line
            (Sample.themed (Sample.strings [""; "x"])) Sample.no_props 0)
  = Str "".
Proof.
  apply (empty_string_is_a_marker Sample.line Sample.ThemeCtx
           (Sample.themed (Sample.strings [""; "x"]))
           Sample.no_props 0 [""; "x"]).
  - vm_compute. reflexivity.
  - lia.
  - reflexivity.
Defined.

Lemma fallback_to_default_marker_witness :
  configuredMarker (Sample.themed (Array [])) Sample.no_props = Array []
  ∧ marker (listItemContext Sample.line (Sample.themed (Array []))
              Sample.no_props 2)
    = Str (defaultMarker Sample.line).
Proof.
  split; [vm_compute; reflexivity|].
  apply (fallback_to_default_marker Sample.line Sample.ThemeCtx
           (Sample.themed (Array [])) Sample.no_props 2).
  left. vm_compute. reflexivity.
Defined.

(** C6 as stated fails: an array of numbers is neither a string nor a
    sequence of strings, and its element is what resolution yields. *)
Lemma malformed_array_is_not_defaulted :
  let v := Array [Number 42] in
  configuredMarker (Sample.themed v) Sample.no_props = v
  ∧ (¬ ∃ m : string, v = Str m)
  ∧ (¬ ∃ S : list string, v = Array (Str <$> S))
  ∧ marker (listItemContext Sample.line (Sample.themed v) Sample.no_props 0)
    = Number 42
  ∧ Number 42 ≠ Str (defaultMarker Sample.line).
Proof.
  repeat split; try (vm_compute; reflexivity).
  - intros [m Hm]. discriminate.
  - intros [[|s S] HS]; discriminate.
  - discriminate.
Qed.

(** C8 as stated fails: past the end of an array of booleans, resolution
    yields its last element, which is not a string. *)
Lemma resolved_marker_need_not_be_a_string :
  marker (listItemContext Sample.line (Sample.themed (Array [Bool true]))
            Sample.no_props 3)
  = Bool true
  ∧ typeof (Bool true) ≠ "string".
Proof. split; [vm_compute; reflexivity|discriminate]. Qed.



Lemma standalone_item_default_witness :
  marker_by_lists_only Sample.stray = true
  ∧ Forall (eq (Str (defaultMarker Sample.line)))
      (flat_map loose_item_markers
         (Sample.render
            (root (Some (Sample.config (Str "*")))) Sample.stray)).
Proof.
  split; [reflexivity|].
  apply (standalone_item_default Sample.line Sample.ThemeCtx
           Sample.useComponentTheme Sample.stray).
  reflexivity.
Defined.

(** ** Marker resolution at the edges *)

Lemma at_minus_one_as_index (arr : list value) :
  at_ arr (-1) = index arr (Z.of_nat (length arr) - 1).
Proof.
  unfold at_, index. destruct (decide (0 ≤ -1)) as [|_]; [lia|].
  replace (Z.of_nat (length arr) + -1) with (Z.of_nat (length arr) - 1) by lia.
  reflexivity.
Qed.

Lemma index_nullish_all (arr : list value) (i : Z) :
  Forall (λ x, nullish x = true) arr -> nullish (index arr i) = true.
Proof.
  intros Hall. destruct (index_cases arr i) as [->|Hin]; [done|].
  by apply (proj1 (Forall_forall _ _) Hall).
Qed.

Section ResolutionEdges.

Variable figures_line : string.
Variable ThemeCtx : Type.

Implicit Types (config : theme_config ThemeCtx).
Implicit Types (props : UnorderedListProps ThemeCtx).
Implicit Types (d : Z) (arr : list value) (S : list string).

Lemma resolve_array_missing config props d arr :
  configuredMarker config props = Array arr ->
  nullish (index arr d) = true ->
  marker (listItemContext figures_line config props d)
  = default Undefined (last arr) ?? Str (defaultMarker figures_line).
Proof.
  intros Hcfg Hslot.
  rewrite (resolve_array figures_line ThemeCtx _ _ _ _ Hcfg), <- at_minus_one.
  unfold coalesce at 2. by rewrite Hslot.
Qed.

Lemma resolve_array_pattern config props d arr :
  configuredMarker config props = Array arr ->
  marker (listItemContext figures_line config props d)
  = getMarkerForDepth arr d ?? Str (defaultMarker figures_line).
Proof.
  intros Hcfg. rewrite (resolve_array figures_line ThemeCtx _ _ _ _ Hcfg).
  by rewrite at_minus_one_as_index.
Qed.

(** X1.  Whenever the slot at the depth index is missing or holds
    [undefined] or [null] (a depth past the end, a negative depth, a hole),
    resolution yields the last element of the array, or the default marker
    when there is no last element or it is [undefined] or [null] too. *)
Theorem missing_slot_takes_last config props d arr :
  configuredMarker config props = Array arr ->
  nullish (index arr d) = true ->
  marker (listItemContext figures_line config props d)
  = default Undefined (last arr) ?? Str (defaultMarker figures_line).
Proof.
  intros Hcfg Hslot. unfold configuredMarker in Hcfg.
  unfold listItemContext, useMemo. rewrite Hcfg. cbn [typeof isArray].
  destruct (decide ("object" = "string")) as [Hno|_]; [discriminate Hno|].
  cbn [marker]. rewrite at_minus_one.
  unfold coalesce at 2. by rewrite Hslot.
Qed.

(** X2.  A negative depth is not clamped to the first level: with a
    non-empty sequence of strings configured it resolves to the last
    element, like a depth past the end. *)
Theorem negative_depth_takes_last config props d S :
  configuredMarker config props = Array (Str <$> S) ->
  S ≠ [] ->
  d < 0 ->
  ∃ m, last S = Some m
       ∧ marker (listItemContext figures_line config props d) = Str m.
Proof.
  intros Hcfg Hne Hd.
  destruct (last S) as [m|] eqn:Hlast.
  - exists m. split; [done|].
    rewrite (resolve_array_missing _ _ _ _ Hcfg)
      by (by rewrite index_negative).
    by rewrite fmap_last, Hlast.
  - apply last_None in Hlast. done.
Qed.

(** X3.  An array none of whose elements is usable (each is [undefined] or
    [null]; the empty array is one such) resolves to the default marker at
    every depth. *)
Theorem unusable_array_defaults config props d arr :
  configuredMarker config props = Array arr ->
  Forall (λ x, nullish x = true) arr ->
  marker (listItemContext figures_line config props d)
  = Str (defaultMarker figures_line).
Proof.
  intros Hcfg Hall.
  rewrite (resolve_array_missing _ _ _ _ Hcfg)
    by (by apply index_nullish_all).
  rewrite <- at_minus_one, at_minus_one_as_index.
  unfold coalesce. by rewrite index_nullish_all.
Qed.

(** X4.  Only the [marker] property of a configuration object is read:
    setting any other property leaves the resolved marker as it was. *)
Theorem other_properties_ignored
    props d (o : gmap string value) (key : string) (x : value) :
  key ≠ "marker" ->
  listItemContext figures_line (ThemeCtx := ThemeCtx)
    (ConfigVal (Object (<[key := x]> o))) props d
  = listItemContext figures_line (ConfigVal (Object o)) props d.
Proof.
  intros Hkey. unfold listItemContext, useMemo, resolvedConfig, optional_member.
  by rewrite lookup_insert_ne.
Qed.

(** X5.  A configuration that is not an object (a bare string or array
    given in place of [{ marker: ... }], a number, nothing at all) has no
    marker to read, and resolution yields the default marker. *)
Theorem non_object_config_defaults config props d :
  (∀ o, resolvedConfig config props ≠ Object o) ->
  marker (listItemContext figures_line config props d)
  = Str (defaultMarker figures_line).
Proof.
  intros Hno. apply resolve_other; unfold configuredMarker;
    destruct (resolvedConfig config props) as [| | | | | |o]; try done;
    by destruct (Hno o).
Qed.

(** X6.  The component and the resolution pattern of the test suites: on
    every array and at every depth the component's marker is the pattern's
    value, with the default marker in its place when the pattern yields
    [undefined] or [null]. *)
Theorem component_extends_test_pattern config props d arr :
  configuredMarker config props = Array arr ->
  marker (listItemContext figures_line config props d)
  = getMarkerForDepth arr d ?? Str (defaultMarker figures_line).
Proof.
  intros Hcfg. unfold getMarkerForDepth.
  rewrite <- at_minus_one_as_index.
  exact (resolve_array figures_line ThemeCtx config props d arr Hcfg).
Qed.

(** X7.  On a non-empty sequence of strings the pattern never needs the
    default: it yields a string, the very marker the component resolves,
    at every depth, negative ones included. *)
Theorem test_pattern_agrees_on_strings config props d S :
  configuredMarker config props = Array (Str <$> S) ->
  S ≠ [] ->
  ∃ m : string,
    getMarkerForDepth (Str <$> S) d = Str m
    ∧ marker (listItemContext figures_line config props d) = Str m.
Proof.
  intros Hcfg Hne.
  assert (Hstr : ∃ m : string, getMarkerForDepth (Str <$> S) d = Str m).
  { unfold getMarkerForDepth.
    destruct (index_cases (Str <$> S) d) as [Hu|Hin].
    - rewrite Hu, coalesce_undefined, <- at_minus_one_as_index, at_minus_one.
      rewrite fmap_last. destruct (last S) as [m|] eqn:Hlast; [by eauto|].
      by apply last_None in Hlast.
    - apply list_elem_of_fmap in Hin as (m & Hm & _).
      rewrite Hm. by eauto. }
  destruct Hstr as [m Hm]. exists m. split; [done|].
  by rewrite (resolve_array_pattern _ _ _ _ Hcfg), Hm.
Qed.

End ResolutionEdges.

(** ** What a rendering depends on *)

Lemma flat_map_agree {A B : Type}
    (f g : A -> list B) (p : A -> bool) (l : list A) :
  Forall (λ x, p x = true -> f x = g x) l ->
  forallb p l = true ->
  flat_map f l = flat_map g l.
Proof.
  induction 1 as [|x l Hx _ IH]; simpl; [done|].
  intros [Hp Hl]%andb_true_iff. by rewrite Hx, IH.
Qed.

Section RenderingFrames.

Variable figures_line : string.
Variable ThemeCtx : Type.
Variable useComponentTheme :
  ThemeCtx -> string -> theme_config ThemeCtx ->
  UnorderedListProps ThemeCtx -> theme_config ThemeCtx.

Implicit Types (sc : Scope ThemeCtx) (t e : element ThemeCtx).
Implicit Types (cs : list (element ThemeCtx)).

(** X8.  Items never read the depth: a tree without list containers
    renders the same in any two scopes that have the marker and the theme
    in common, whatever depth each of them carries. *)
Theorem items_ignore_depth t :
  no_lists t = true ->
  ∀ (lc lc' : option UnorderedListContextProps)
    (ic : option UnorderedListItemContextProps) (theme : ThemeCtx),
    render figures_line useComponentTheme
      {| listCtx := lc; itemCtx := ic; themeCtx := theme |} t
    = render figures_line useComponentTheme
        {| listCtx := lc'; itemCtx := ic; themeCtx := theme |} t.
Proof.
  induction t as [content|cs IH|v cs IH|v cs IH|theme' cs IH|cs IH|cs IH]
    using element_children_ind; intros Hok lc lc' ic theme;
    simpl in Hok |- *; try done.
  - f_equal. f_equal.
    apply flat_map_agree with (p := no_lists); [|done].
    eapply Forall_impl; [exact IH|]. intros c Hc Hokc. by apply Hc.
  - apply flat_map_agree with (p := no_lists); [|done].
    eapply Forall_impl; [exact IH|]. intros c Hc Hokc. by apply Hc.
  - apply flat_map_agree with (p := no_lists); [|done].
    eapply Forall_impl; [exact IH|]. intros c Hc Hokc. by apply Hc.
  - rewrite (flat_map_agree
               (render figures_line useComponentTheme
                  {| listCtx := lc; itemCtx := ic; themeCtx := theme |})
               (render figures_line useComponentTheme
                  {| listCtx := lc'; itemCtx := ic; themeCtx := theme |})
               no_lists cs);
      [done| |done].
    eapply Forall_impl; [exact IH|]. intros c Hc Hokc. by apply Hc.
Qed.

(** X9.  A list container shields what it contains from the marker around
    it: a tree whose items all lie below a list container or a marker
    provider of its own renders the same whatever marker is ambient. *)
Theorem outer_marker_does_not_leak t :
  items_covered t = true ->
  ∀ lc theme (a b : option UnorderedListItemContextProps),
    render figures_line useComponentTheme
      {| listCtx := lc; itemCtx := a; themeCtx := theme |} t
    = render figures_line useComponentTheme
        {| listCtx := lc; itemCtx := b; themeCtx := theme |} t.
Proof.
  induction t as [content|cs IH|v cs IH|v cs IH|theme' cs IH|cs IH|cs IH]
    using element_children_ind; intros Hok lc theme a b; simpl in Hok |- *;
    try done.
  - f_equal. f_equal.
    apply flat_map_agree with (p := items_covered); [|done].
    eapply Forall_impl; [exact IH|]. intros c Hc Hokc. by apply Hc.
  - apply flat_map_agree with (p := items_covered); [|done].
    eapply Forall_impl; [exact IH|]. intros c Hc Hokc. by apply Hc.
  - apply flat_map_agree with (p := items_covered); [|done].
    eapply Forall_impl; [exact IH|]. intros c Hc Hokc. by apply Hc.
Qed.

(** X10.  A hand-written depth provider re-bases the count: when no
    further depth provider is written by hand below it, the lists below
    it observe the depth it provides plus the number of lists between it
    and them, whatever the depth outside.  The two bounds keep the
    provided depth and every depth counted from it within the integers
    that the [depth + 1] of the code computes exactly. *)
Theorem depth_provider_rebases sc (v : UnorderedListContextProps) cs :
  forallb depth_by_lists_only cs = true ->
  - 2 ^ 53 ≤ depth v ->
  depth v + Z.of_nat (foldr Nat.max 0%nat (map list_height cs)) ≤ 2 ^ 53 ->
  forallb (nesting_exact (depth v) 0)
    (render figures_line useComponentTheme sc
       (UnorderedListContext_Provider v cs)) = true.
Proof.
  intros Hok _ _. cbn [render].
  apply forallb_flat_map_intro with (p := depth_by_lists_only); [|done].
  apply Forall_forall. intros c _ Hc.
  apply render_nesting_exact; [done|]. unfold ambient_depth. simpl. lia.
Qed.

(** X11.  The nearest provider wins: the items below a hand-written marker
    provider that are outside of further lists observe the marker it
    provides, whatever list encloses the provider. *)
Theorem nearest_marker_provider_wins sc (v : UnorderedListItemContextProps) cs :
  forallb marker_by_lists_only cs = true ->
  Forall (eq (marker v))
    (flat_map loose_item_markers
       (render figures_line useComponentTheme sc
          (UnorderedListItemContext_Provider v cs))).
Proof.
  intros Hok. cbn [render]. apply Forall_flat_map.
  apply Forall_flat_map_intro with (p := marker_by_lists_only); [|done].
  apply Forall_forall. intros c _ Hc.
  exact (render_loose_items figures_line ThemeCtx useComponentTheme c
           {| listCtx := listCtx sc; itemCtx := Some v;
              themeCtx := themeCtx sc |} Hc).
Qed.

End RenderingFrames.

(** ** One marker for a whole tree *)

Lemma item_markers_in_box (output : list instance) :
  flat_map item_markers [HostBox output] = flat_map item_markers output.
Proof. simpl. by rewrite app_nil_r. Qed.

Lemma item_markers_in_item_output (m : value) (output : list instance) :
  flat_map item_markers [HostBox [HostText m; HostBox output]]
  = flat_map item_markers output.
Proof. simpl. by rewrite !app_nil_r. Qed.

Section UniformMarker.

Variable figures_line : string.
Variable ThemeCtx : Type.
Variable useComponentTheme :
  ThemeCtx -> string -> theme_config ThemeCtx ->
  UnorderedListProps ThemeCtx -> theme_config ThemeCtx.

Implicit Types (sc : Scope ThemeCtx) (t e : element ThemeCtx).
Implicit Types (cs : list (element ThemeCtx)).

Lemma default_theme_configures_default props :
  configuredMarker (unorderedListTheme figures_line ThemeCtx) props
  = Str (defaultMarker figures_line).
Proof.
  unfold configuredMarker, unorderedListTheme, resolvedConfig, optional_member.
  by rewrite lookup_singleton_eq.
Qed.

Lemma inside_marker (m : string) sc cs :
  (∀ theme props,
      configuredMarker
        (useComponentTheme theme "UnorderedList"
           (unorderedListTheme figures_line ThemeCtx) props)
        props
      = Str m) ->
  ambient_marker figures_line (inside figures_line useComponentTheme sc cs)
  = Str m.
Proof.
  intros Hm. unfold ambient_marker, inside, useContext. cbn [itemCtx default].
  apply resolve_string, Hm.
Qed.

Lemma render_uniform (m : string) t :
  (∀ theme props,
      configuredMarker
        (useComponentTheme theme "UnorderedList"
           (unorderedListTheme figures_line ThemeCtx) props)
        props
      = Str m) ->
  no_marker_provider t = true ->
  ∀ sc,
    ambient_marker figures_line sc = Str m ->
    Forall (λ i, Forall (eq (Str m)) (item_markers i))
      (render figures_line useComponentTheme sc t).
Proof.
  intros Hm.
  induction t as [content|cs IH|v cs IH|v cs IH|theme cs IH|cs IH|cs IH]
    using element_children_ind; intros Hok sc Hsc; simpl in Hok; try done.
  - repeat constructor.
  - cbn [render]. constructor; [|constructor]. cbn [item_markers].
    apply Forall_flat_map.
    apply Forall_flat_map_intro with (p := no_marker_provider); [|done].
    eapply Forall_impl; [exact IH|]. intros c Hc Hokc. by apply Hc.
  - cbn [render].
    apply Forall_flat_map_intro with (p := no_marker_provider); [|done].
    eapply Forall_impl; [exact IH|]. intros c Hc Hokc. by apply Hc.
  - cbn [render].
    apply Forall_flat_map_intro with (p := no_marker_provider); [|done].
    eapply Forall_impl; [exact IH|]. intros c Hc Hokc. by apply Hc.
  - rewrite render_list_output. constructor; [|constructor].
    cbn [item_markers]. rewrite item_markers_in_box. apply Forall_flat_map.
    apply Forall_flat_map_intro with (p := no_marker_provider); [|done].
    eapply Forall_impl; [exact IH|]. intros c Hc Hokc.
    apply Hc; [done|]. by apply inside_marker.
  - rewrite render_item_output. constructor; [|constructor].
    cbn [item_markers]. constructor; [by rewrite <- Hsc|].
    rewrite item_markers_in_item_output. apply Forall_flat_map.
    apply Forall_flat_map_intro with (p := no_marker_provider); [|done].
    eapply Forall_impl; [exact IH|]. intros c Hc Hokc. by apply Hc.
Qed.

(** X12.  When the theme configures one string as the marker wherever a
    list asks for it, every item of a list displays that string, at every
    level of nesting below the list, whatever marker was ambient around
    the list. *)
Theorem single_marker_at_every_level (m : string) sc cs :
  (∀ theme props,
      configuredMarker
        (useComponentTheme theme "UnorderedList"
           (unorderedListTheme figures_line ThemeCtx) props)
        props
      = Str m) ->
  forallb no_marker_provider cs = true ->
  Forall (eq (Str m))
    (flat_map item_markers
       (render figures_line useComponentTheme sc (El_UnorderedList cs))).
Proof.
  intros Hm Hok. apply Forall_flat_map.
  apply (render_uniform m (El_UnorderedList cs) Hm Hok
           {| listCtx := listCtx sc;
              itemCtx := Some {| marker := Str m |};
              themeCtx := themeCtx sc |}).
  reflexivity.
Qed.

(** X13.  With no theme extended (every list gets the component's own
    theme back), the theme's marker and the marker context's default are
    the same string: every item of a tree, inside a list at any level or
    outside of every list, displays the default marker. *)
Theorem default_marker_everywhere t :
  (∀ theme props,
      useComponentTheme theme "UnorderedList"
        (unorderedListTheme figures_line ThemeCtx) props
      = unorderedListTheme figures_line ThemeCtx) ->
  no_marker_provider t = true ->
  ∀ theme,
    Forall (eq (Str (defaultMarker figures_line)))
      (flat_map item_markers
         (render figures_line useComponentTheme (root theme) t)).
Proof.
  intros Hown Hok theme. apply Forall_flat_map.
  apply render_uniform; [|done|reflexivity].
  intros theme' props. rewrite Hown.
  apply default_theme_configures_default.
Qed.

End UniformMarker.

(** ** The further properties at work *)

Lemma missing_slot_takes_last_witness :
  marker (listItemContext Sample.line
            (Sample.themed (Array [Undefined; Str "x"])) Sample.no_props 0)
  = default Undefined (last [Undefined; Str "x"])
    ?? Str (defaultMarker Sample.line).
Proof.
  apply (missing_slot_takes_last Sample.line Sample.ThemeCtx
           (Sample.themed (Array [Undefined; Str "x"])) Sample.no_props 0
           [Undefined; Str "x"]).
  - vm_compute. reflexivity.
  - reflexivity.
Defined.

Lemma negative_depth_takes_last_witness :
  ∃ m, last ["*"; "+"] = Some m
       ∧ marker (listItemContext Sample.line
                   (Sample.themed (Sample.strings ["*"; "+"]))
                   Sample.no_props (-3))
         = Str m.
Proof.
  apply (negative_depth_takes_last Sample.line Sample.ThemeCtx
           (Sample.themed (Sample.strings ["*"; "+"])) Sample.no_props (-3)
           ["*"; "+"]).
  - vm_compute. reflexivity.
  - discriminate.
  - lia.
Defined.

Lemma unusable_array_defaults_witness :
  marker (listItemContext Sample.line
            (Sample.themed (Array [Null; Undefined])) Sample.no_props 1)
  = Str (defaultMarker Sample.line).
Proof.
  apply (unusable_array_defaults Sample.line Sample.ThemeCtx
           (Sample.themed (Array [Null; Undefined])) Sample.no_props 1
           [Null; Undefined]).
  - vm_compute. reflexivity.
  - repeat constructor.
Defined.

Lemma other_properties_ignored_witness :
  listItemContext Sample.line (ThemeCtx := Sample.ThemeCtx)
    (ConfigVal (Object (<["gap" := Number 1]> {[ "marker" := Str "*" ]})))
    Sample.no_props 0
  = listItemContext Sample.line
      (ConfigVal (Object {[ "marker" := Str "*" ]})) Sample.no_props 0.
Proof.
  apply (other_properties_ignored Sample.line Sample.ThemeCtx Sample.no_props
           0 {[ "marker" := Str "*" ]} "gap" (Number 1)).
  discriminate.
Defined.

Lemma non_object_config_defaults_witness :
  marker (listItemContext Sample.line (ThemeCtx := Sample.ThemeCtx)
            (ConfigVal (Str "*")) Sample.no_props 0)
  = Str (defaultMarker Sample.line).
Proof.
  apply (non_object_config_defaults Sample.line Sample.ThemeCtx
           (ConfigVal (Str "*")) Sample.no_props 0).
  intros o. discriminate.
Defined.

Lemma component_extends_test_pattern_witness :
  marker (listItemContext Sample.line (Sample.themed (Array []))
            Sample.no_props 2)
  = getMarkerForDepth [] 2 ?? Str (defaultMarker Sample.line).
Proof.
  apply (component_extends_test_pattern Sample.line Sample.ThemeCtx
           (Sample.themed (Array [])) Sample.no_props 2 []).
  vm_compute. reflexivity.
Defined.

Lemma test_pattern_agrees_on_strings_witness :
  ∃ m : string,
    getMarkerForDepth (Str <$> ["*"; "+"]) 5 = Str m
    ∧ marker (listItemContext Sample.line
                (Sample.themed (Sample.strings ["*"; "+"]))
                Sample.no_props 5)
      = Str m.
Proof.
  apply (test_pattern_agrees_on_strings Sample.line Sample.ThemeCtx
           (Sample.themed (Sample.strings ["*"; "+"])) Sample.no_props 5
           ["*"; "+"]).
  - vm_compute. reflexivity.
  - discriminate.
Defined.

Lemma items_ignore_depth_witness :
  no_lists Sample.flat = true
  ∧ Sample.render (root None) Sample.flat
    = Sample.render
        {| listCtx := Some {| depth := 7 |}; itemCtx := None;
           themeCtx := None |}
        Sample.flat.
Proof.
  split; [reflexivity|].
  apply (items_ignore_depth Sample.line Sample.ThemeCtx
           Sample.useComponentTheme Sample.flat).
  reflexivity.
Defined.

Lemma outer_marker_does_not_leak_witness :
  items_covered Sample.three_levels = true
  ∧ Sample.render
      {| listCtx := None; itemCtx := None; themeCtx := None |}
      Sample.three_levels
    = Sample.render
        {| listCtx := None; itemCtx := Some {| marker := Str "!" |};
           themeCtx := None |}
        Sample.three_levels.
Proof.
  split; [reflexivity|].
  apply (outer_marker_does_not_leak Sample.line Sample.ThemeCtx
           Sample.useComponentTheme Sample.three_levels).
  reflexivity.
Defined.

Lemma depth_provider_rebases_witness :
  forallb depth_by_lists_only [Sample.three_levels] = true
  ∧ forallb (nesting_exact 5 0)
      (Sample.render (root None)
         (UnorderedListContext_Provider {| depth := 5 |}
            [Sample.three_levels])) = true.
Proof.
  split; [reflexivity|].
  apply (depth_provider_rebases Sample.line Sample.ThemeCtx
           Sample.useComponentTheme (root None) {| depth := 5 |}
           [Sample.three_levels]).
  - reflexivity.
  - vm_compute. discriminate.
  - vm_compute. discriminate.
Defined.

Lemma nearest_marker_provider_wins_witness :
  forallb marker_by_lists_only [Sample.stray] = true
  ∧ Forall (eq (Str "!"))
      (flat_map loose_item_markers
         (Sample.render
            (inside Sample.line Sample.useComponentTheme
               (root (Some (Sample.config (Str "*")))) [])
            (UnorderedListItemContext_Provider {| marker := Str "!" |}
               [Sample.stray]))).
Proof.
  split; [reflexivity|].
  apply (nearest_marker_provider_wins Sample.line Sample.ThemeCtx
           Sample.useComponentTheme
           (inside Sample.line Sample.useComponentTheme
              (root (Some (Sample.config (Str "*")))) [])
           {| marker := Str "!" |} [Sample.stray]).
  reflexivity.
Defined.

Lemma single_marker_at_every_level_witness :
  forallb no_marker_provider Sample.contents = true
  ∧ Forall (eq (Str "*"))
      (flat_map item_markers
         (render Sample.line (Sample.fixed (Str "*")) (root None)
            Sample.three_levels)).
Proof.
  split; [reflexivity|].
  apply (single_marker_at_every_level Sample.line Sample.ThemeCtx
           (Sample.fixed (Str "*")) "*" (root None) Sample.contents).
  - intros theme props. vm_compute. reflexivity.
  - reflexivity.
Defined.

Lemma default_marker_everywhere_witness :
  no_marker_provider Sample.stray = true
  ∧ Forall (eq (Str (defaultMarker Sample.line)))
      (flat_map item_markers
         (render Sample.line Sample.own_theme (root None) Sample.stray)).
Proof.
  split; [reflexivity|].
  apply (default_marker_everywhere Sample.line Sample.ThemeCtx
           Sample.own_theme Sample.stray).
  - intros theme props. reflexivity.
  - reflexivity.
Defined.

(** ** A non-empty sequence is never left for the default *)
Section Coverage.

Variable figures_line : string.
Variable ThemeCtx : Type.

(** X14.  With a non-empty sequence of strings configured, the marker
    resolved at any depth whatsoever is one of the configured strings:
    the default marker is never substituted. *)
Theorem configured_strings_cover_every_depth
    (config : theme_config ThemeCtx) (props : UnorderedListProps ThemeCtx)
    (d : Z) (S : list string) :
  configuredMarker config props = Array (Str <$> S) ->
  S ≠ [] ->
  ∃ m : string,
    m ∈ S ∧ marker (listItemContext figures_line config props d) = Str m.
Proof.
  intros Hcfg Hne.
  rewrite (resolve_array figures_line ThemeCtx config props d _ Hcfg).
  destruct (index_cases (Str <$> S) d) as [Hu|Hin].
  - rewrite Hu, coalesce_undefined, at_minus_one, fmap_last.
    destruct (last S) as [m|] eqn:Hlast.
    + exists m. split; [|done].
      rewrite last_lookup in Hlast. by eapply list_elem_of_lookup_2.
    + by apply last_None in Hlast.
  - apply list_elem_of_fmap in Hin as (m & Hm & HmS).
    exists m. split; [done|]. by rewrite Hm.
Qed.

End Coverage.

Lemma configured_strings_cover_every_depth_witness :
  ∃ m : string,
    m ∈ ["*"; "+"]
    ∧ marker (listItemContext Sample.line
                (Sample.themed (Sample.strings ["*"; "+"]))
                Sample.no_props (-1))
      = Str m.
Proof.
  apply (configured_strings_cover_every_depth Sample.line Sample.ThemeCtx
           (Sample.themed (Sample.strings ["*"; "+"])) Sample.no_props (-1)
           ["*"; "+"]).
  - vm_compute. reflexivity.
  - discriminate.
Defined.
